(** * FeatureFence playground server: the lint endpoint

    A shallow embedding of [server.js] (the [toItems] normaliser, the
    [POST /api/lint] handler, and the text-building steps of the
    playground script) and of [eslint.config.mjs], with the properties of
    the diagnostic gateway proved about them.

    Conventions of the embedding:
    - a JavaScript string is a [string] whose characters are code units in
      the range U+0000..U+00FF; on that range [trim] and [toLowerCase]
      below are the ECMAScript functions;
    - a request body is a value produced by [JSON.parse]; an object is a
      finite map from property names to values;
    - [undefined] is [None] of [option];
    - a computation that may throw returns a [completion];
    - the ESLint engine (with the featurefence plugin and its compatibility
      data) is not part of the repository: it is a variable of the
      [Server] section, a function of an environment, the options the
      handler passes and the text. *)

From Stdlib Require Import ZArith NArith Ascii String DecimalString.
From stdpp Require Import base option list strings gmap.

Local Open Scope string_scope.

(** ** JavaScript values and built-ins used by the server *)

Module JS.

(** *** Strings *)

Definition code_unit (c : ascii) : N := N_of_ascii c.

(** WhiteSpace and LineTerminator code units below U+0100: TAB, LF, VT,
    FF, CR, SP and NBSP. *)
Definition isWhiteSpace (c : ascii) : bool :=
  let n := code_unit c in
  ((9 <=? n) && (n <=? 13) || (n =? 32) || (n =? 160))%N.

Fixpoint trimStart (s : string) : string :=
  match s with
  | EmptyString => EmptyString
  | String c r => if isWhiteSpace c then trimStart r else s
  end.

Fixpoint trimEnd (s : string) : string :=
  match s with
  | EmptyString => EmptyString
  | String c r =>
      match trimEnd r with
      | EmptyString => if isWhiteSpace c then EmptyString else String c EmptyString
      | r' => String c r'
      end
  end.

(** [String.prototype.trim]. *)
Definition trim (s : string) : string := trimEnd (trimStart s).

(** Upper-case code units below U+0100: A-Z, and U+00C0..U+00DE without
    the multiplication sign U+00D7. Each has its lower-case form 32
    above it. *)
Definition isUpper (c : ascii) : bool :=
  let n := code_unit c in
  ((65 <=? n) && (n <=? 90) || (192 <=? n) && (n <=? 222) && negb (n =? 215))%N.

Definition lowerUnit (c : ascii) : ascii :=
  if isUpper c then ascii_of_N (code_unit c + 32) else c.

(** [String.prototype.toLowerCase]. *)
Fixpoint toLowerCase (s : string) : string :=
  match s with
  | EmptyString => EmptyString
  | String c r => String (lowerUnit c) (toLowerCase r)
  end.

(** [String.prototype.includes]. *)
Fixpoint includes (s sub : string) : bool :=
  String.prefix sub s ||
  match s with
  | EmptyString => false
  | String _ r => includes r sub
  end.

Definition isEmpty (s : string) : bool :=
  match s with EmptyString => true | _ => false end.

(** *** Values parsed from JSON *)

#[warnings="-register-all"]
Inductive JSON : Type :=
| JNull
| JBool (b : bool)
| JNum (n : Z)
| JStr (s : string)
| JArr (xs : list JSON)
| JObj (props : gmap string JSON).
(* [JNum] carries an integer of magnitude below 10^21, whose text is its
   decimal numeral; the handler only tests a number for truth and converts
   it to a string. *)

(** A value that may be [undefined]. *)
Abbreviation Value := (option JSON).

(** ToBoolean. *)
Definition truthy (v : Value) : bool :=
  match v with
  | None => false
  | Some JNull => false
  | Some (JBool b) => b
  | Some (JNum n) => negb (n =? 0)%Z
  | Some (JStr s) => negb (isEmpty s)
  | Some (JArr _) => true
  | Some (JObj _) => true
  end.

(** [a || b]. *)
Definition orElse (a b : Value) : Value := if truthy a then a else b.

(** Property read [v.k] for a name [k] that no prototype defines (the
    handler reads [language] and [code]): only an own property of a
    parsed object provides it. *)
Definition get (v : Value) (k : string) : Value :=
  match v with
  | Some (JObj props) => props !! k
  | _ => None
  end.

(** *** Errors and completions *)

Record Error : Type := mkError {
  name : string;
  message : string;
  stack : string
}.

(** What is thrown is an error object. [String(e)] is
    [Error.prototype.toString]. *)
Definition errorToString (e : Error) : string :=
  if isEmpty (name e) then message e
  else if isEmpty (message e) then name e
  else name e ++ ": " ++ message e.

Inductive completion (A : Type) : Type :=
| Normal (a : A)
| Throw (e : Error).
Arguments Normal {A} a.
Arguments Throw {A} e.

Definition bind {A B : Type} (c : completion A) (k : A -> completion B)
  : completion B :=
  match c with
  | Normal a => k a
  | Throw e => Throw e
  end.

(** The error of OrdinaryToPrimitive when neither [toString] nor
    [valueOf] yields a primitive (the engine's stack text is left empty). *)
Definition cannotConvert : Error :=
  mkError "TypeError" "Cannot convert object to primitive value" "".

Definition numberToString (n : Z) : string :=
  NilZero.string_of_int (Z.to_int n).

(** [Array.prototype.join] with the default separator, over the texts of
    the elements. *)
Fixpoint join (parts : list string) : string :=
  match parts with
  | [] => ""
  | [p] => p
  | p :: rest => p ++ "," ++ join rest
  end.

Fixpoint sequence {A : Type} (cs : list (completion A)) : completion (list A) :=
  match cs with
  | [] => Normal []
  | c :: rest => bind c (fun a => bind (sequence rest) (fun r => Normal (a :: r)))
  end.

(** ToString of a parsed value. An object with no own [toString] gets
    [Object.prototype.toString]; an own [toString] is a parsed value,
    hence not callable, and [valueOf] (own and not callable, or
    [Object.prototype.valueOf], which returns the object) gives no
    primitive either. An array is joined, [null] elements as the empty
    string. *)
Fixpoint toString (v : JSON) : completion string :=
  match v with
  | JNull => Normal "null"
  | JBool true => Normal "true"
  | JBool false => Normal "false"
  | JNum n => Normal (numberToString n)
  | JStr s => Normal s
  | JArr xs =>
      bind (sequence (map (fun x => match x with
                                    | JNull => Normal ""
                                    | _ => toString x
                                    end) xs))
           (fun parts => Normal (join parts))
  | JObj props =>
      match props !! "toString" with
      | None => Normal "[object Object]"
      | Some _ => Throw cannotConvert
      end
  end.

(** [String(v)]. *)
Definition String_ (v : Value) : completion string :=
  match v with
  | None => Normal "undefined"
  | Some j => toString j
  end.

End JS.

(** ** The ESLint API, as far as the server uses it *)

Module ESLint.

(** A [LintMessage]; [severity] is 1 (warning) or 2 (error) in ESLint,
    any number here. *)
Record LintMessage : Type := mkLintMessage {
  ruleId : option string;
  message : string;
  severity : Z;
  line : option Z;
  column : option Z;
  endLine : option Z;
  endColumn : option Z
}.

(** A [LintResult]; [toItems] reads only [messages], and guards against
    its absence. *)
Record LintResult : Type := mkLintResult {
  filePath : string;
  messages : option (list LintMessage)
}.

(** The options of the featurefence rule. *)
Record RuleOptions : Type := mkRuleOptions {
  mode : string;
  targets : list string
}.

Record RuleEntry : Type := mkRuleEntry {
  ruleSeverity : string;
  ruleOptions : RuleOptions
}.

Record LanguageOptions : Type := mkLanguageOptions {
  ecmaVersion : Z;
  sourceType : string
}.

(** A flat-config object; a plugin is named here, its code belongs to the
    environment of the engine. *)
Record ConfigObject : Type := mkConfigObject {
  languageOptions : LanguageOptions;
  plugins : list string;
  rules : list (string * RuleEntry)
}.

(** The options of [new ESLint(...)] and of [lintText]. *)
Record Options : Type := mkOptions {
  overrideConfig : option ConfigObject
}.

Record LintTextOptions : Type := mkLintTextOptions {
  textFilePath : string
}.

End ESLint.

(** ** eslint.config.mjs *)

Definition config : list ESLint.ConfigObject :=
  [ {| ESLint.languageOptions :=
         {| ESLint.ecmaVersion := 2022; ESLint.sourceType := "module" |};
       ESLint.plugins := ["featurefence"];
       ESLint.rules :=
         [ ("featurefence/no-unsupported-feature",
            {| ESLint.ruleSeverity := "warn";
               ESLint.ruleOptions :=
                 {| ESLint.mode := "baseline-or-targets";
                    ESLint.targets := [">=0.5%"; "last 2 versions"; "not dead"] |} |}) ] |} ].

(** ** server.js *)

Module Server.

Import JS.

Notation "'let*' x ':=' c 'in' k" := (bind c (fun x => k))
  (at level 10, x name, c at level 100, k at level 200, only parsing).

(** *** The response schema *)

Record Location : Type := mkLocation {
  line : option Z;
  column : option Z;
  endLine : option Z;
  endColumn : option Z
}.

Record Item : Type := mkItem {
  rule : string;
  message : string;
  severity : string;
  location : Location
}.

Record Summary : Type := mkSummary {
  level : string;
  errors : nat;
  warnings : nat;
  total : nat
}.

Record Report : Type := mkReport {
  summary : Summary;
  items : list Item
}.

(** The objects the lint handler passes to [res.json]. *)
Inductive Body : Type :=
| ErrorBody (error : string)
| LintBody (ok : bool) (language : string) (summary : Summary) (items : list Item).

Record Response : Type := mkResponse {
  status : Z;
  body : Body
}.

Definition errorOf (b : Body) : option string :=
  match b with
  | ErrorBody e => Some e
  | LintBody _ _ _ _ => None
  end.

Definition reportOf (b : Body) : option Report :=
  match b with
  | ErrorBody _ => None
  | LintBody _ _ s i => Some (mkReport s i)
  end.

(** [res.json(b)] and [res.status(n).json(b)]. *)
Definition json (b : Body) : Response := mkResponse 200 b.
Definition statusJson (n : Z) (b : Body) : Response := mkResponse n b.

(** The request, as the handlers read it. *)
Record Request : Type := mkRequest {
  method : string;
  path : string;
  headers : list (string * string);
  reqBody : Value
}.

(** What handling a request leaves behind: the response sent, and the
    errors written with [console.error]. *)
Record Outcome : Type := mkOutcome {
  response : Response;
  console : list Error
}.

(** *** Helper: Normalize ESLint results *)

Definition isError (m : ESLint.LintMessage) : bool := (ESLint.severity m =? 2)%Z.

(** [m.ruleId || "(no-rule)"]. *)
Definition ruleOf (m : ESLint.LintMessage) : string :=
  match ESLint.ruleId m with
  | Some r => if isEmpty r then "(no-rule)" else r
  | None => "(no-rule)"
  end.

Definition toItem (m : ESLint.LintMessage) : Item :=
  {| rule := ruleOf m;
     message := ESLint.message m;
     severity := if isError m then "error" else "warn";
     location := {| line := ESLint.line m; column := ESLint.column m;
                    endLine := ESLint.endLine m; endColumn := ESLint.endColumn m |} |}.

(** [toItems(eslintResults)]; [None] is a missing results list. *)
Definition toItems (eslintResults : option (list ESLint.LintResult)) : Report :=
  let r := eslintResults ≫= head in
  let messages := default [] (r ≫= ESLint.messages) in
  let items := map toItem messages in
  let errorCount := length (List.filter isError messages) in
  let warnCount := length (List.filter (fun m => negb (isError m)) messages) in
  {| summary :=
       {| level := match errorCount with
                   | S _ => "error"
                   | O => match warnCount with S _ => "warn" | O => "ok" end
                   end;
          errors := errorCount; warnings := warnCount; total := length messages |};
     items := items |}.
Arguments toItems : simpl never.

(** *** 4) Lint *)

Section Lint.

(** The engine: [new ESLint(options).lintText(code, textOptions)], in an
    environment that holds whatever else it reads (the plugin and its
    compatibility data). It returns the results or throws. *)
Variable Env : Type.
Variable lintText :
  Env -> ESLint.Options -> string -> ESLint.LintTextOptions ->
  completion (list ESLint.LintResult).

(** [Array.isArray(config) ? config[0] : config]: the configuration is an
    array. *)
Definition overrideConfig : option ESLint.ConfigObject := head config.

Definition unsupported (lang : string) : Body :=
  LintBody true lang
    {| level := "warn"; errors := 0; warnings := 1; total := 1 |}
    [ {| rule := "unsupported-language";
         message := "Language '" ++ lang ++
           "' is not yet supported by this server. Use 'javascript' to see ESLint-based results.";
         severity := "warn";
         location := {| line := Some 1%Z; column := Some 1%Z;
                        endLine := None; endColumn := None |} |} ].

(** [String(language || "javascript").toLowerCase()]. *)
Definition effectiveLanguage (language : Value) : completion string :=
  let* s := String_ (orElse language (Some (JStr "javascript"))) in
  Normal (toLowerCase s).

(** The JavaScript branch: a fresh engine with the first configuration
    object lints the text as [input.js]; its results are normalised. *)
Definition lintJavaScript (env : Env) (code lang : string) : completion Response :=
  let* results :=
    lintText env {| ESLint.overrideConfig := overrideConfig |} code
             {| ESLint.textFilePath := "input.js" |} in
  let r := toItems (Some results) in
  Normal (json (LintBody true lang (summary r) (items r))).

(** The body of the [try] block. *)
Definition tryLint (env : Env) (req : Request) : completion Response :=
  let b := orElse (reqBody req) (Some (JObj ∅)) in
  let language := get b "language" in
  let code := get b "code" in
  match code with
  | Some (JStr code) =>
      if isEmpty (trim code)
      then Normal (statusJson 400 (ErrorBody "Missing 'code' (string)"))
      else
        let* lang := effectiveLanguage language in
        if (lang =? "javascript") || (lang =? "js")
        then lintJavaScript env code lang
        else Normal (json (unsupported lang))
  | _ => Normal (statusJson 400 (ErrorBody "Missing 'code' (string)"))
  end.

(** [try { ... } catch (e) { console.error(e); return res.status(500).json({ error: String(e) }); }] *)
Definition catch (c : completion Response) : Outcome :=
  match c with
  | Normal r => {| response := r; console := [] |}
  | Throw e =>
      {| response := statusJson 500 (ErrorBody (errorToString e));
         console := [e] |}
  end.

(** The handler of [POST /api/lint]. *)
Definition lint (env : Env) (req : Request) : Outcome :=
  catch (tryLint env req).

End Lint.

End Server.

(** ** The script of the playground page

    The page is the template literal [PLAYGROUND_HTML] of [server.js]. The
    browser runs the cooked text of the literal, in which a pair of
    backslashes of the source is one backslash: the source
    [replace(/\\/$/, '')] is served as [replace(/\/$/, '')]. *)

Module Playground.

Definition slash : ascii := "/"%char.

(** The double quote, U+0022. *)
Definition quote : ascii := "034"%char.

(** [s.replace(/\/$/, '')]: the pattern matches a slash at the end of the
    text only. *)
Fixpoint stripFinalSlash (s : string) : string :=
  match s with
  | EmptyString => EmptyString
  | String c EmptyString => if Ascii.eqb c slash then EmptyString else s
  | String c r => String c (stripFinalSlash r)
  end.

(** [const base = (baseInput.value || '').replace(/\/$/, '')]; the value
    of an input is a string. *)
Definition base (value : string) : string :=
  stripFinalSlash (if JS.isEmpty value then "" else value).

(** [const url = base + ep]. *)
Definition url (value ep : string) : string := base value ++ ep.

(** [s.replace(/c/g, repl)] for a character [c] and a text [repl] that
    holds no dollar sign. *)
Fixpoint replaceAll (c : ascii) (repl : string) (s : string) : string :=
  match s with
  | EmptyString => EmptyString
  | String d r =>
      if Ascii.eqb d c then repl ++ replaceAll c repl r
      else String d (replaceAll c repl r)
  end.

(** [const jsonForCurl = JSON.stringify(body).replace(..., ...)], applied
    to the JSON text of the body. The pattern is the double quote, global.
    The replacement is written in the source as two backslashes and a
    double quote between single quotes; it is served as one backslash and
    the double quote, and that string literal is the double quote alone. *)
Definition jsonForCurl (json : string) : string :=
  replaceAll quote (String quote EmptyString) json.

End Playground.

(** ** A stand-in engine, and requests, for closed instances *)

Module Example.

Import JS.

(** An entry of a compatibility index: a token of source text, the
    feature it uses, and the runtime and first version that support it. *)
Record Feature : Type := mkFeature {
  token : string;
  feature : string;
  runtime : string;
  since : Z
}.

Definition Env : Type := list Feature.

Definition index : Env :=
  [ mkFeature "startViewTransition" "view-transitions" "firefox" 144 ].

Definition report (sev : Z) (f : Feature) : ESLint.LintMessage :=
  {| ESLint.ruleId := Some "featurefence/no-unsupported-feature";
     ESLint.message :=
       "Feature '" ++ feature f ++ "' is not supported in " ++ runtime f ++
       " before " ++ numberToString (since f);
     ESLint.severity := sev;
     ESLint.line := Some 1%Z; ESLint.column := Some 1%Z;
     ESLint.endLine := None; ESLint.endColumn := None |}.

(** An engine that honours its configuration: with a configuration
    object it reports every indexed feature whose token occurs in the
    text; without one it throws. *)
Definition lintText (env : Env) (o : ESLint.Options) (code : string)
    (t : ESLint.LintTextOptions) : completion (list ESLint.LintResult) :=
  match ESLint.overrideConfig o with
  | Some _ =>
      Normal [ {| ESLint.filePath := ESLint.textFilePath t;
                  ESLint.messages :=
                    Some (map (report 1)
                              (List.filter (fun f => includes code (token f)) env)) |} ]
  | None => Throw (mkError "Error" "Could not find config file." "")
  end.

(** An engine whose plugin cannot be loaded. *)
Definition pluginError : Error :=
  mkError "Error"
    "Cannot find module '/srv/featurefence/node_modules/eslint-plugin-featurefence/index.js'"
    "Error: Cannot find module
    at Module._resolveFilename (node:internal/modules/cjs/loader:1145:15)".

Definition failing (env : Env) (o : ESLint.Options) (code : string)
    (t : ESLint.LintTextOptions) : completion (list ESLint.LintResult) :=
  Throw pluginError.

(** A request to [POST /api/lint] with a JSON object as body. *)
Definition post (props : gmap string JSON) : Server.Request :=
  {| Server.method := "POST"; Server.path := "/api/lint";
     Server.headers := [("content-type", "application/json")];
     Server.reqBody := Some (JObj props) |}.

Definition demoCode : string := "document.startViewTransition(() => {});".

Definition jsRequest : Server.Request :=
  post {[ "language" := JStr "JavaScript"; "code" := JStr demoCode;
          "targets" := JStr "firefox 100" ]}.

(** The same request from another client, with another property. *)
Definition jsRequestAgain : Server.Request :=
  {| Server.method := "POST"; Server.path := "/api/lint";
     Server.headers := [("content-type", "application/json"); ("user-agent", "curl/8.5.0")];
     Server.reqBody :=
       Some (JObj {[ "language" := JStr "JavaScript"; "code" := JStr demoCode;
                     "targets" := JStr "firefox 100"; "debug" := JBool true ]}) |}.

(** The same code for a runtime version that supports the feature. *)
Definition jsRequestNewer : Server.Request :=
  post {[ "language" := JStr "JavaScript"; "code" := JStr demoCode;
          "targets" := JStr "firefox 150" ]}.

Definition pythonRequest : Server.Request :=
  post {[ "language" := JStr "Python"; "code" := JStr "print(1)" ]}.

(** A [language] that is an object with an own [toString] property. *)
Definition oddRequest : Server.Request :=
  post {[ "language" := JObj {[ "toString" := JNum 1 ]}; "code" := JStr demoCode ]}.



Definition blankRequest : Server.Request :=
  post {[ "language" := JStr "javascript"; "code" := JStr "  " ]}.

(** Results of two files, the first with an error, a warning and a
    message of the parser, which has no rule. *)
Definition mixedResults : list ESLint.LintResult :=
  [ {| ESLint.filePath := "input.js";
       ESLint.messages :=
         Some [ ESLint.mkLintMessage (Some "no-undef") "'x' is not defined." 2
                  (Some 1%Z) (Some 1%Z) (Some 1%Z) (Some 2%Z);
                report 1 (mkFeature "startViewTransition" "view-transitions" "firefox" 144);
                ESLint.mkLintMessage None "Parsing error: Unexpected token" 2
                  (Some 3%Z) (Some 7%Z) None None ] |};
    {| ESLint.filePath := "other.js";
       ESLint.messages :=
         Some [ ESLint.mkLintMessage (Some "no-empty") "Empty block statement." 2
                  (Some 1%Z) (Some 1%Z) None None ] |} ].

Definition demoFinding : Server.Item :=
  {| Server.rule := "featurefence/no-unsupported-feature";
     Server.message := "Feature 'view-transitions' is not supported in firefox before 144";
     Server.severity := "warn";
     Server.location :=
       {| Server.line := Some 1%Z; Server.column := Some 1%Z;
          Server.endLine := None; Server.endColumn := None |} |}.

Definition demoReport : Server.Report :=
  {| Server.summary :=
       {| Server.level := "warn"; Server.errors := 0; Server.warnings := 1;
          Server.total := 1 |};
     Server.items := [demoFinding] |}.

End Example.

(** ** Vocabulary of the properties *)

Module Spec.

Import JS.

(** The body the handler destructures: [req.body || {}]. *)
Definition bodyOf (req : Server.Request) : Value :=
  orElse (Server.reqBody req) (Some (JObj ∅)).

Fixpoint allWhiteSpace (s : string) : bool :=
  match s with
  | EmptyString => true
  | String c r => isWhiteSpace c && allWhiteSpace r
  end.

(** A [code] field that is absent, not a string, or only whitespace. *)
Definition missingOrBlank (code : Value) : bool :=
  match code with
  | None => true
  | Some (JStr s) => allWhiteSpace s
  | Some _ => true
  end.

Definition isLowerLetter (c : ascii) : bool :=
  let n := code_unit c in ((97 <=? n) && (n <=? 122))%N.

Fixpoint allLower (w : string) : bool :=
  match w with
  | EmptyString => true
  | String c r => isLowerLetter c && allLower r
  end.

Definition capital (c : ascii) : ascii := ascii_of_N (code_unit c - 32).

(** [caseVariantOf w s]: [s] is the word [w] with some of its lower-case
    letters written as capitals. *)
Fixpoint caseVariantOf (w s : string) : bool :=
  match w, s with
  | EmptyString, EmptyString => true
  | String c w', String d s' =>
      (Ascii.eqb d c || isLowerLetter c && Ascii.eqb d (capital c))
      && caseVariantOf w' s'
  | _, _ => false
  end.

(** The report of no findings. *)
Definition emptyReport : Server.Report :=
  {| Server.summary :=
       {| Server.level := "ok"; Server.errors := 0; Server.warnings := 0;
          Server.total := 0 |};
     Server.items := [] |}.

(** The answer to a request that fails validation. *)
Definition badRequest : Server.Response :=
  Server.statusJson 400 (Server.ErrorBody "Missing 'code' (string)").

(** The findings of the feature-compatibility rule in a response whose
    message names the runtime [r] and the feature [f]. *)
Definition namingFindings (r f : string) (b : Server.Body) : list Server.Item :=
  match b with
  | Server.LintBody _ _ _ items =>
      List.filter (fun i =>
                String.eqb (Server.rule i) "featurefence/no-unsupported-feature"
                && includes (Server.message i) r && includes (Server.message i) f)
             items
  | Server.ErrorBody _ => []
  end.

(** The options the handler gives the engine. *)
Definition engineOptions : ESLint.Options :=
  {| ESLint.overrideConfig := Server.overrideConfig |}.
Definition inputFile : ESLint.LintTextOptions :=
  {| ESLint.textFilePath := "input.js" |}.

(** The targets the featurefence rule is configured with. *)
Definition configuredTargets (o : ESLint.Options) : list (list string) :=
  match ESLint.overrideConfig o with
  | Some c => map (fun e => ESLint.targets (ESLint.ruleOptions (snd e))) (ESLint.rules c)
  | None => []
  end.

(** The messages [toItems] normalises: [eslintResults?.[0]?.messages || []]. *)
Definition firstMessages (results : option (list ESLint.LintResult))
  : list ESLint.LintMessage :=
  let r := results ≫= head in
  default [] (r ≫= ESLint.messages).

Definition severityIs (sev : string) (i : Server.Item) : bool :=
  String.eqb (Server.severity i) sev.

(** Every item has one of the two severities. *)
Definition twoSeverities (rep : Server.Report) : Prop :=
  Forall (fun i => Server.severity i = "error" \/ Server.severity i = "warn")
         (Server.items rep).

(** The counts of the summary are those of the items by severity. *)
Definition countsBySeverity (rep : Server.Report) : Prop :=
  Server.errors (Server.summary rep) =
    length (List.filter (severityIs "error") (Server.items rep))
  /\ Server.warnings (Server.summary rep) =
       length (List.filter (severityIs "warn") (Server.items rep)).

(** The level is [ok] exactly when there is no item. *)
Definition okIffNoItem (rep : Server.Report) : Prop :=
  Server.level (Server.summary rep) = "ok" <-> Server.items rep = [].

(** Every item names a rule. *)
Definition rulesNamed (rep : Server.Report) : Prop :=
  Forall (fun i => Server.rule i <> "") (Server.items rep).

(** A parsed value that [String] cannot convert: an object with an own
    [toString] property, or an array that holds one, at any depth. *)
Fixpoint unprintable (v : JSON) : bool :=
  match v with
  | JObj props => bool_decide (is_Some (props !! "toString"))
  | JArr xs => existsb unprintable xs
  | _ => false
  end.

(** [String] returns a text for a value that is not [unprintable], and
    throws the TypeError of the conversion for one that is. *)
Definition converts (v : JSON) : Prop :=
  (unprintable v = false -> exists s, toString v = Normal s)
  /\ (unprintable v = true -> toString v = Throw cannotConvert).

(** The answer to a request whose language cannot be converted. *)
Definition conversionFailure : Server.Outcome :=
  {| Server.response :=
       Server.statusJson 500
         (Server.ErrorBody "TypeError: Cannot convert object to primitive value");
     Server.console := [cannotConvert] |}.

End Spec.

(** ** Properties *)

Module Properties.

Import JS Server Spec.

(** *** Strings *)

Lemma trimStart_blank (s : string) :
  allWhiteSpace s = true -> trimStart s = "".
Proof.
  induction s as [|c r IH]; simpl; [reflexivity|].
  intros [Hc Hr]%andb_true_iff. rewrite Hc. auto.
Qed.

Lemma trimStart_not_blank (s : string) :
  allWhiteSpace s = false ->
  exists c r, trimStart s = String c r /\ isWhiteSpace c = false.
Proof.
  induction s as [|c r IH]; simpl; [discriminate|].
  destruct (isWhiteSpace c) eqn:Hc; simpl.
  - exact IH.
  - intros _. exists c, r. rewrite Hc. auto.
Qed.

Lemma trimEnd_keeps_head (c : ascii) (r : string) :
  isWhiteSpace c = false -> isEmpty (trimEnd (String c r)) = false.
Proof.
  intros Hc. simpl. destruct (trimEnd r); [rewrite Hc|]; reflexivity.
Qed.

(** [code.trim()] is the empty string exactly for a text of whitespace. *)
Lemma trim_empty (s : string) : isEmpty (trim s) = allWhiteSpace s.
Proof.
  unfold trim. destruct (allWhiteSpace s) eqn:Hs.
  - rewrite (trimStart_blank s Hs). reflexivity.
  - destruct (trimStart_not_blank s Hs) as (c & r & -> & Hc).
    apply trimEnd_keeps_head, Hc.
Qed.

Lemma lower_capital (c : ascii) :
  isLowerLetter c = true -> lowerUnit (capital c) = c.
Proof.
  destruct c as [[] [] [] [] [] [] [] []]; intros H; try discriminate H; reflexivity.
Qed.

Lemma lower_lower (c : ascii) :
  isLowerLetter c = true -> lowerUnit c = c.
Proof.
  destruct c as [[] [] [] [] [] [] [] []]; intros H; try discriminate H; reflexivity.
Qed.

(** Lower-casing a case variant of a word of lower-case letters gives the
    word back. *)
Lemma toLowerCase_caseVariant (w s : string) :
  allLower w = true -> caseVariantOf w s = true -> toLowerCase s = w.
Proof.
  revert s. induction w as [|c w IH]; intros [|d s]; simpl; try discriminate; [reflexivity|].
  intros [Hc Hw]%andb_true_iff [Hd Hs]%andb_true_iff.
  rewrite (IH s Hw Hs). f_equal.
  apply orb_true_iff in Hd as [Hd | [_ Hd]%andb_true_iff];
    apply Ascii.eqb_eq in Hd; subst d.
  - apply lower_lower, Hc.
  - apply lower_capital, Hc.
Qed.

Example trim_demo : trim (String "009" " a b 
") = "a b".
Proof. reflexivity. Qed.

Example toLowerCase_demo : toLowerCase "JavaScript ES2022" = "javascript es2022".
Proof. reflexivity. Qed.

Example String_demo :
  String_ (Some (JArr [JStr "JS"; JNull; JNum (-7); JArr [JBool true]])) = Normal "JS,,-7,true".
Proof. reflexivity. Qed.

(** *** Normalisation *)

Example toItems_mixed :
  summary (toItems (Some Example.mixedResults)) =
    {| level := "error"; errors := 2; warnings := 1; total := 3 |}
  /\ map rule (items (toItems (Some Example.mixedResults))) =
       ["no-undef"; "featurefence/no-unsupported-feature"; "(no-rule)"]
  /\ map severity (items (toItems (Some Example.mixedResults))) =
       ["error"; "warn"; "error"].
Proof. repeat split; reflexivity. Qed.

Lemma filter_partition_length {A : Type} (p : A -> bool) (l : list A) :
  length (List.filter p l) + length (List.filter (fun x => negb (p x)) l) = length l.
Proof.
  induction l as [|x l IH]; simpl; [reflexivity|].
  destruct (p x); simpl; lia.
Qed.

Lemma toItems_counts (results : option (list ESLint.LintResult)) :
  let rep := toItems results in
  total (summary rep) = errors (summary rep) + warnings (summary rep)
  /\ total (summary rep) = length (items rep).
Proof.
  unfold toItems; simpl. split.
  - symmetry. apply filter_partition_length.
  - rewrite length_map. reflexivity.
Qed.

(** *** The lint handler *)

Section Handler.

Context {Env : Type}.
Variable lintText :
  Env -> ESLint.Options -> string -> ESLint.LintTextOptions ->
  completion (list ESLint.LintResult).

Local Abbreviation lint := (Server.lint Env lintText).
Local Abbreviation tryLint := (Server.tryLint Env lintText).
Local Abbreviation lintJavaScript := (Server.lintJavaScript Env lintText).

Lemma tryLint_rejects (env : Env) (req : Request) :
  missingOrBlank (get (bodyOf req) "code") = true ->
  tryLint env req = Normal badRequest.
Proof.
  unfold Server.tryLint. fold (bodyOf req).
  destruct (get (bodyOf req) "code") as [[| | |s| |]|]; simpl; try reflexivity.
  intros Hs. rewrite trim_empty, Hs. reflexivity.
Qed.

Lemma tryLint_accepts (env : Env) (req : Request) (code : string) :
  get (bodyOf req) "code" = Some (JStr code) ->
  allWhiteSpace code = false ->
  tryLint env req =
    bind (effectiveLanguage (get (bodyOf req) "language"))
         (fun lang =>
            if (lang =? "javascript") || (lang =? "js")
            then lintJavaScript env code lang
            else Normal (json (unsupported lang))).
Proof.
  intros Hcode Hs. unfold Server.tryLint. fold (bodyOf req).
  rewrite Hcode, trim_empty, Hs. reflexivity.
Qed.

Lemma lintJavaScript_status (env : Env) (code lang : string) (r : Response) :
  lintJavaScript env code lang = Normal r -> status r = 200%Z.
Proof.
  unfold Server.lintJavaScript.
  destruct (lintText env _ code _); simpl; intros H; inversion H; reflexivity.
Qed.

Lemma lint_accepts_status (env : Env) (req : Request) :
  missingOrBlank (get (bodyOf req) "code") = false ->
  status (response (lint env req)) = 200%Z
  \/ status (response (lint env req)) = 500%Z.
Proof.
  intros Hm.
  destruct (get (bodyOf req) "code") as [[| | |code| |]|] eqn:Hcode;
    simpl in Hm; try discriminate Hm.
  unfold Server.lint. rewrite (tryLint_accepts env req code Hcode Hm).
  destruct (effectiveLanguage _) as [lang|e]; simpl; [|auto].
  destruct ((lang =? "javascript") || (lang =? "js")); simpl; [|auto].
  destruct (lintJavaScript env code lang) as [r|e] eqn:Hr; simpl; [|auto].
  left. eapply lintJavaScript_status, Hr.
Qed.

(** C3. A lint request whose [code] is absent, not a string, or made of
    whitespace only is answered with status 400 and a body that has an
    [error] field and no report (no [summary], no [items]); a request
    whose [code] is a string with a character that is not whitespace is
    not answered with 400. *)
Theorem lint_validates_code (env : Env) (req : Request) :
  (missingOrBlank (get (bodyOf req) "code") = true ->
     status (response (lint env req)) = 400%Z
     /\ errorOf (body (response (lint env req))) = Some "Missing 'code' (string)"
     /\ reportOf (body (response (lint env req))) = None)
  /\ (missingOrBlank (get (bodyOf req) "code") = false ->
        status (response (lint env req)) <> 400%Z).
Proof.
  split.
  - intros H. unfold Server.lint. rewrite (tryLint_rejects env req H). auto.
  - intros H. destruct (lint_accepts_status env req H) as [-> | ->]; discriminate.
Qed.

Lemma lintJavaScript_report (env : Env) (code lang : string) (r : Response) (rep : Report) :
  lintJavaScript env code lang = Normal r ->
  reportOf (body r) = Some rep ->
  exists results, lintText env {| ESLint.overrideConfig := overrideConfig |} code
                    {| ESLint.textFilePath := "input.js" |} = Normal results
                  /\ rep = toItems (Some results).
Proof.
  unfold Server.lintJavaScript.
  destruct (lintText env _ code _) as [results|e]; simpl; intros [= <-].
  simpl. intros [= <-]. exists results. split; [reflexivity|].
  reflexivity.
Qed.

(** C1. In every report the lint endpoint returns, from the JavaScript
    branch as from the branch of the other languages, [summary.total] is
    [summary.errors + summary.warnings], and is the length of [items]. *)
Theorem lint_report_counts (env : Env) (req : Request) (rep : Report) :
  reportOf (body (response (lint env req))) = Some rep ->
  total (summary rep) = errors (summary rep) + warnings (summary rep)
  /\ total (summary rep) = length (items rep).
Proof.
  destruct (missingOrBlank (get (bodyOf req) "code")) eqn:Hm.
  - unfold Server.lint. rewrite (tryLint_rejects env req Hm). discriminate.
  - destruct (get (bodyOf req) "code") as [[| | |code| |]|] eqn:Hcode;
      simpl in Hm; try discriminate Hm.
    unfold Server.lint. rewrite (tryLint_accepts env req code Hcode Hm).
    destruct (effectiveLanguage _) as [lang|e]; simpl; [|discriminate].
    destruct ((lang =? "javascript") || (lang =? "js")); simpl.
    + destruct (lintJavaScript env code lang) as [r|e] eqn:Hr; simpl; [|discriminate].
      intros Hrep.
      destruct (lintJavaScript_report env code lang r rep Hr Hrep) as (results & _ & ->).
      apply toItems_counts.
    + intros [= <-]. simpl. auto.
Qed.

(** C2. A lint request that passes validation and whose language, lower-cased,
    is neither [javascript] nor [js] does not fail: the answer has status
    200 and a report with exactly one finding, of rule
    [unsupported-language] and severity [warn], and [summary.level] is
    [warn]. *)
Theorem unsupported_language_report (env : Env) (req : Request) (lang : string) :
  missingOrBlank (get (bodyOf req) "code") = false ->
  effectiveLanguage (get (bodyOf req) "language") = Normal lang ->
  lang <> "javascript" -> lang <> "js" ->
  console (lint env req) = []
  /\ status (response (lint env req)) = 200%Z
  /\ exists msg loc,
       body (response (lint env req)) =
         LintBody true lang
           {| level := "warn"; errors := 0; warnings := 1; total := 1 |}
           [ {| rule := "unsupported-language"; message := msg;
                severity := "warn"; location := loc |} ].
Proof.
  intros Hm Hlang Hjs1 Hjs2.
  destruct (get (bodyOf req) "code") as [[| | |code| |]|] eqn:Hcode;
    simpl in Hm; try discriminate Hm.
  unfold Server.lint. rewrite (tryLint_accepts env req code Hcode Hm), Hlang. simpl.
  apply String.eqb_neq in Hjs1, Hjs2. rewrite Hjs1, Hjs2. simpl.
  repeat split. eauto.
Qed.

(** C6. Whatever results are normalised, [summary.level] is [error] when
    the count of errors is positive, else [warn] when the count of
    warnings is positive, else [ok]. *)
Theorem toItems_level (results : option (list ESLint.LintResult)) :
  let s := summary (toItems results) in
  (0 < errors s -> level s = "error")
  /\ (errors s = 0 -> 0 < warnings s -> level s = "warn")
  /\ (errors s = 0 -> warnings s = 0 -> level s = "ok").
Proof.
  unfold toItems; simpl.
  destruct (length (List.filter isError _)), (length (List.filter (fun m => negb (isError m)) _));
    repeat split; intros; (reflexivity || lia || discriminate).
Qed.

(** The counts of a summary are the counts of the messages of the first
    result by severity: 2 is an error, anything else a warning. *)
Lemma toItems_of_messages (f : string) (msgs : list ESLint.LintMessage)
    (rest : list ESLint.LintResult) :
  toItems (Some (ESLint.mkLintResult f (Some msgs) :: rest)) =
    {| summary :=
         {| level := if (0 <? length (List.filter isError msgs))%nat then "error"
                     else if (0 <? length (List.filter (fun m => negb (isError m)) msgs))%nat
                          then "warn" else "ok";
            errors := length (List.filter isError msgs);
            warnings := length (List.filter (fun m => negb (isError m)) msgs);
            total := length msgs |};
       items := map toItem msgs |}.
Proof.
  unfold toItems; simpl.
  destruct (length (List.filter isError msgs)),
           (length (List.filter (fun m => negb (isError m)) msgs)); reflexivity.
Qed.

(** C10. Normalisation reads the first result only: the results after it
    change nothing; a missing or empty results list gives the summary
    [{level: ok, errors: 0, warnings: 0, total: 0}] and no items; and a
    message without a rule id is reported under the rule [(no-rule)]. *)
Theorem toItems_first_result_only :
  (forall r rest, toItems (Some (r :: rest)) = toItems (Some [r]))
  /\ toItems None = emptyReport
  /\ toItems (Some []) = emptyReport
  /\ (forall f msgs rest,
        items (toItems (Some (ESLint.mkLintResult f (Some msgs) :: rest))) = map toItem msgs)
  /\ (forall m, ESLint.ruleId m = None -> rule (toItem m) = "(no-rule)").
Proof.
  repeat split; try reflexivity.
  intros m H. simpl. unfold ruleOf. rewrite H. reflexivity.
Qed.

Lemma tryLint_reads_language_and_code (env : Env) (r1 r2 : Request) :
  get (bodyOf r1) "language" = get (bodyOf r2) "language" ->
  get (bodyOf r1) "code" = get (bodyOf r2) "code" ->
  tryLint env r1 = tryLint env r2.
Proof.
  intros Hl Hc. unfold Server.tryLint. fold (bodyOf r1) (bodyOf r2).
  rewrite Hl, Hc. reflexivity.
Qed.

(** C7. The lint pipeline is deterministic: with the same engine in the
    same environment (the compatibility index among it), two requests
    with the same [language], [code] and [targets] get the same answer,
    whatever else the requests differ in. *)
Theorem lint_deterministic (env : Env) (r1 r2 : Request) :
  get (bodyOf r1) "language" = get (bodyOf r2) "language" ->
  get (bodyOf r1) "code" = get (bodyOf r2) "code" ->
  get (bodyOf r1) "targets" = get (bodyOf r2) "targets" ->
  lint env r1 = lint env r2.
Proof.
  intros Hl Hc _. unfold Server.lint.
  rewrite (tryLint_reads_language_and_code env r1 r2 Hl Hc). reflexivity.
Qed.

(** C9. Language selection is case-insensitive and has a default. For a
    request that passes validation: when [language] is absent or the
    empty string the JavaScript engine is run, as language [javascript];
    when it is a non-empty string the request is dispatched on its
    lower-cased text, which is the [language] of the answer; and every
    spelling of [javascript] or [js], in any letter case, runs the
    JavaScript engine. *)
Theorem language_selection (env : Env) (req : Request) (code : string) :
  get (bodyOf req) "code" = Some (JStr code) ->
  allWhiteSpace code = false ->
  let language := get (bodyOf req) "language" in
  (language = None \/ language = Some (JStr "") ->
     lint env req = catch (lintJavaScript env code "javascript"))
  /\ (forall s, language = Some (JStr s) -> s <> "" ->
        lint env req =
          catch (if (toLowerCase s =? "javascript") || (toLowerCase s =? "js")
                 then lintJavaScript env code (toLowerCase s)
                 else Normal (json (unsupported (toLowerCase s)))))
  /\ (forall s, language = Some (JStr s) ->
        caseVariantOf "javascript" s || caseVariantOf "js" s = true ->
        (toLowerCase s = "javascript" \/ toLowerCase s = "js")
        /\ lint env req = catch (lintJavaScript env code (toLowerCase s))).
Proof.
  intros Hcode Hs language. unfold Server.lint.
  rewrite (tryLint_accepts env req code Hcode Hs). fold language.
  split; [|split].
  - intros [-> | ->]; reflexivity.
  - intros s -> Hne. destruct s; [contradiction|]. reflexivity.
  - intros s -> Hv.
    assert (Hl : toLowerCase s = "javascript" \/ toLowerCase s = "js").
    { apply orb_true_iff in Hv as [Hv | Hv];
        [left | right]; apply toLowerCase_caseVariant; auto. }
    split; [exact Hl|].
    destruct s as [|c s]; [destruct Hl; discriminate|].
    change (effectiveLanguage (Some (JStr (String c s))))
      with (Normal (toLowerCase (String c s))).
    cbn [bind]. destruct Hl as [-> | ->]; reflexivity.
Qed.

(** C5, as the code has it. When the engine throws [e] on a request that
    reaches it, the answer has status 500 and the body [{error: String(e)}],
    the name and the message of [e]; [e] is written to the console. The
    stack of [e] is not in the answer: errors that differ only in their
    stack give the same answer. *)
Theorem engine_failure_answer (env : Env) (req : Request) (code lang : string) (e : Error) :
  get (bodyOf req) "code" = Some (JStr code) ->
  allWhiteSpace code = false ->
  effectiveLanguage (get (bodyOf req) "language") = Normal lang ->
  lang = "javascript" \/ lang = "js" ->
  lintText env engineOptions code inputFile = Throw e ->
  lint env req =
    {| response := statusJson 500 (ErrorBody (errorToString e)); console := [e] |}
  /\ forall st, errorToString (mkError (name e) (JS.message e) st) = errorToString e.
Proof.
  intros Hcode Hs Hlang Hjs He. split; [|reflexivity].
  unfold Server.lint. rewrite (tryLint_accepts env req code Hcode Hs), Hlang. simpl.
  replace ((lang =? "javascript") || (lang =? "js")) with true
    by (destruct Hjs as [-> | ->]; reflexivity).
  unfold Server.lintJavaScript. fold engineOptions inputFile. rewrite He. reflexivity.
Qed.

Lemma lint_whatever_targets (env : Env) (m h : string)
    (hs : list (string * string)) (props : gmap string JSON) (t1 t2 : JSON) :
  lint env (mkRequest m h hs (Some (JObj (<["targets" := t1]> props))))
  = lint env (mkRequest m h hs (Some (JObj (<["targets" := t2]> props)))).
Proof.
  unfold Server.lint. f_equal.
  apply tryLint_reads_language_and_code; simpl;
    rewrite !lookup_insert_ne by discriminate; reflexivity.
Qed.

(** C4, as the code has it. The findings of the feature-compatibility
    rule do not depend on the [targets] of the request: whatever runtime
    [r] and feature [f], two requests whose bodies differ in [targets]
    only get the same findings naming [r] and [f]. *)
Theorem feature_findings_ignore_targets (env : Env) (m h : string)
    (hs : list (string * string)) (props : gmap string JSON) (t1 t2 : JSON) (r f : string) :
  namingFindings r f
    (body (response (lint env (mkRequest m h hs (Some (JObj (<["targets" := t1]> props)))))))
  = namingFindings r f
      (body (response (lint env (mkRequest m h hs (Some (JObj (<["targets" := t2]> props))))))).
Proof.
  rewrite (lint_whatever_targets env m h hs props t1 t2). reflexivity.
Qed.

End Handler.

(** *** The engine and the targets *)

Lemma tryLint_reads_engine_at_its_options {Env : Type}
    (lt1 lt2 : Env -> ESLint.Options -> string -> ESLint.LintTextOptions ->
               completion (list ESLint.LintResult))
    (env : Env) (r1 r2 : Request) :
  (forall code, lt1 env engineOptions code inputFile = lt2 env engineOptions code inputFile) ->
  get (bodyOf r1) "language" = get (bodyOf r2) "language" ->
  get (bodyOf r1) "code" = get (bodyOf r2) "code" ->
  tryLint Env lt1 env r1 = tryLint Env lt2 env r2.
Proof.
  intros Hlt Hl Hc.
  rewrite (tryLint_reads_language_and_code lt1 env r1 r2 Hl Hc).
  unfold tryLint, lintJavaScript. fold engineOptions inputFile.
  destruct (get (orElse (reqBody r2) (Some (JObj ∅))) "code") as [[| | |code| |]|];
    try reflexivity.
  rewrite Hlt. reflexivity.
Qed.

(** C8. The answer does not depend on the [targets] of the request: two
    requests whose bodies agree on every property but [targets] get the
    same answer, because the handler reads [language] and [code] only,
    and calls the engine only with the configuration of
    [eslint.config.mjs], whose targets are fixed: engines that agree
    under these options give the same answers. *)
Theorem lint_ignores_targets {Env : Type}
    (lt1 lt2 : Env -> ESLint.Options -> string -> ESLint.LintTextOptions ->
               completion (list ESLint.LintResult))
    (env : Env) (r1 r2 : Request) :
  (forall code, lt1 env engineOptions code inputFile = lt2 env engineOptions code inputFile) ->
  (forall k, k <> "targets" -> get (bodyOf r1) k = get (bodyOf r2) k) ->
  lint Env lt1 env r1 = lint Env lt2 env r2
  /\ configuredTargets engineOptions = [[">=0.5%"; "last 2 versions"; "not dead"]].
Proof.
  intros Hlt Hk. split; [|reflexivity].
  unfold lint.
  rewrite (tryLint_reads_engine_at_its_options lt1 lt2 env r1 r2 Hlt);
    [reflexivity| |]; apply Hk; discriminate.
Qed.

(** *** Closed instances *)

Local Abbreviation demoLint := (lint Example.Env Example.lintText Example.index).

Example lint_demo :
  demoLint Example.jsRequest =
    {| response := json (LintBody true "javascript" (summary Example.demoReport)
                                  (items Example.demoReport));
       console := [] |}.
Proof. vm_compute. reflexivity. Qed.

Example lint_python :
  response (demoLint Example.pythonRequest) = json (unsupported "python").
Proof. vm_compute. reflexivity. Qed.

Example lint_blank :
  demoLint Example.blankRequest = {| response := badRequest; console := [] |}.
Proof. vm_compute. reflexivity. Qed.

Lemma lint_report_counts_demo :
  reportOf (body (response (demoLint Example.jsRequest))) = Some Example.demoReport
  /\ total (summary Example.demoReport) =
       errors (summary Example.demoReport) + warnings (summary Example.demoReport)
  /\ total (summary Example.demoReport) = length (items Example.demoReport).
Proof.
  split; [vm_compute; reflexivity|].
  apply (lint_report_counts Example.lintText Example.index Example.jsRequest).
  vm_compute; reflexivity.
Defined.

Example lint_odd_language :
  response (demoLint Example.oddRequest) =
    statusJson 500 (ErrorBody "TypeError: Cannot convert object to primitive value").
Proof. vm_compute. reflexivity. Qed.

Lemma unsupported_language_report_python :
  console (demoLint Example.pythonRequest) = []
  /\ status (response (demoLint Example.pythonRequest)) = 200%Z
  /\ exists msg loc,
       body (response (demoLint Example.pythonRequest)) =
         LintBody true "python"
           {| level := "warn"; errors := 0; warnings := 1; total := 1 |}
           [ {| rule := "unsupported-language"; message := msg;
                severity := "warn"; location := loc |} ].
Proof.
  apply (unsupported_language_report Example.lintText Example.index
           Example.pythonRequest "python");
    [vm_compute; reflexivity | vm_compute; reflexivity | discriminate | discriminate].
Defined.

Lemma lint_deterministic_demo :
  demoLint Example.jsRequest = demoLint Example.jsRequestAgain.
Proof.
  apply (lint_deterministic Example.lintText Example.index
           Example.jsRequest Example.jsRequestAgain); vm_compute; reflexivity.
Defined.

Lemma language_selection_demo :
  (toLowerCase "JavaScript" = "javascript" \/ toLowerCase "JavaScript" = "js")
  /\ demoLint Example.jsRequest =
       catch (lintJavaScript Example.Env Example.lintText Example.index
                Example.demoCode (toLowerCase "JavaScript")).
Proof.
  assert (Hcode : get (bodyOf Example.jsRequest) "code" = Some (JStr Example.demoCode))
    by (vm_compute; reflexivity).
  assert (Hs : allWhiteSpace Example.demoCode = false) by reflexivity.
  destruct (language_selection Example.lintText Example.index
              Example.jsRequest Example.demoCode Hcode Hs) as (_ & _ & H).
  apply (H "JavaScript"); vm_compute; reflexivity.
Defined.

Lemma engine_failure_answer_demo :
  lint Example.Env Example.failing Example.index Example.jsRequest =
    {| response := statusJson 500 (ErrorBody (errorToString Example.pluginError));
       console := [Example.pluginError] |}
  /\ forall st,
       errorToString (mkError (name Example.pluginError) (JS.message Example.pluginError) st)
       = errorToString Example.pluginError.
Proof.
  apply (engine_failure_answer Example.failing Example.index Example.jsRequest
           Example.demoCode "javascript" Example.pluginError);
    [vm_compute; reflexivity | reflexivity | vm_compute; reflexivity
    | left; reflexivity | reflexivity].
Defined.

Lemma lint_ignores_targets_demo :
  demoLint Example.jsRequest = demoLint Example.jsRequestNewer
  /\ configuredTargets engineOptions = [[">=0.5%"; "last 2 versions"; "not dead"]].
Proof.
  apply (lint_ignores_targets Example.lintText Example.lintText Example.index
           Example.jsRequest Example.jsRequestNewer).
  - reflexivity.
  - intros k Hk. unfold bodyOf, Example.jsRequest, Example.jsRequestNewer, Example.post.
    cbn [reqBody orElse truthy get].
    destruct (decide (k = "language")) as [-> | Hl]; [vm_compute; reflexivity|].
    destruct (decide (k = "code")) as [-> | Hc]; [vm_compute; reflexivity|].
    rewrite !lookup_insert_ne by congruence.
    rewrite !lookup_singleton_ne by congruence. reflexivity.
Defined.

(** C4 fails on the code. The text uses a feature that firefox supports
    from version 144; the claim expects one finding naming firefox and
    the feature for the targets [firefox 100] and none for the targets
    [firefox 150]. The two requests get the same, single finding; and
    with no engine can the first get one finding and the second none. *)
Lemma targets_do_not_select_findings :
  length (namingFindings "firefox" "view-transitions"
            (body (response (demoLint Example.jsRequest)))) = 1
  /\ length (namingFindings "firefox" "view-transitions"
               (body (response (demoLint Example.jsRequestNewer)))) = 1
  /\ forall (Env : Type) lintText (env : Env) m h hs props t1 t2 r f,
       length (namingFindings r f (body (response (lint Env lintText env
                 (mkRequest m h hs (Some (JObj (<["targets" := t1]> props)))))))) = 1 ->
       length (namingFindings r f (body (response (lint Env lintText env
                 (mkRequest m h hs (Some (JObj (<["targets" := t2]> props)))))))) <> 0.
Proof.
  split; [vm_compute; reflexivity|]. split; [vm_compute; reflexivity|].
  intros Env lintText env m h hs props t1 t2 r f.
  rewrite (lint_whatever_targets lintText env m h hs props t1 t2).
  intros ->. discriminate.
Qed.

(** C5 fails on the code. The engine throws an error whose message holds
    a path of the server; the answer has status 500, and its [error]
    field is not a generic text: it is the name and that message. *)
Lemma engine_failure_shows_message :
  response (lint Example.Env Example.failing Example.index Example.jsRequest) =
    statusJson 500 (ErrorBody ("Error: " ++ JS.message Example.pluginError))
  /\ includes ("Error: " ++ JS.message Example.pluginError)
              (JS.message Example.pluginError) = true
  /\ includes ("Error: " ++ JS.message Example.pluginError)
              "/srv/featurefence/node_modules" = true.
Proof. repeat split; vm_compute; reflexivity. Qed.

(** *** More on normalisation *)

Lemma toItems_unfold (results : option (list ESLint.LintResult)) :
  toItems results =
    {| summary :=
         {| level := match length (List.filter isError (firstMessages results)) with
                     | S _ => "error"
                     | O => match length (List.filter (fun m => negb (isError m))
                                                      (firstMessages results)) with
                            | S _ => "warn"
                            | O => "ok"
                            end
                     end;
            errors := length (List.filter isError (firstMessages results));
            warnings := length (List.filter (fun m => negb (isError m))
                                            (firstMessages results));
            total := length (firstMessages results) |};
       items := map toItem (firstMessages results) |}.
Proof. reflexivity. Qed.

Lemma filter_error_items (msgs : list ESLint.LintMessage) :
  List.filter (severityIs "error") (map toItem msgs) = map toItem (List.filter isError msgs).
Proof.
  induction msgs as [|m msgs IH]; [reflexivity|].
  cbn [map List.filter]. unfold severityIs at 1. cbn [toItem severity].
  destruct (isError m); cbn; rewrite IH; reflexivity.
Qed.

Lemma filter_warn_items (msgs : list ESLint.LintMessage) :
  List.filter (severityIs "warn") (map toItem msgs)
  = map toItem (List.filter (fun m => negb (isError m)) msgs).
Proof.
  induction msgs as [|m msgs IH]; [reflexivity|].
  cbn [map List.filter]. unfold severityIs at 1. cbn [toItem severity].
  destruct (isError m); cbn; rewrite IH; reflexivity.
Qed.

Lemma ruleOf_named (m : ESLint.LintMessage) : ruleOf m <> "".
Proof.
  unfold ruleOf. destruct (ESLint.ruleId m) as [[|c r]|]; discriminate.
Qed.

Lemma toItems_twoSeverities (results : option (list ESLint.LintResult)) :
  twoSeverities (toItems results).
Proof.
  unfold twoSeverities. rewrite toItems_unfold. cbn [items].
  induction (firstMessages results) as [|m msgs IH]; constructor; [|exact IH].
  cbn. destruct (isError m); auto.
Qed.

Lemma toItems_countsBySeverity (results : option (list ESLint.LintResult)) :
  countsBySeverity (toItems results).
Proof.
  unfold countsBySeverity. rewrite toItems_unfold. cbn [items summary errors warnings].
  rewrite filter_error_items, filter_warn_items, !length_map. auto.
Qed.

Lemma toItems_okIffNoItem (results : option (list ESLint.LintResult)) :
  okIffNoItem (toItems results).
Proof.
  unfold okIffNoItem. rewrite toItems_unfold. cbn [items summary level].
  pose proof (filter_partition_length isError (firstMessages results)) as Hp.
  destruct (firstMessages results) as [|m msgs] eqn:Hm.
  - split; reflexivity.
  - split; [|discriminate].
    destruct (length (List.filter isError (m :: msgs))); [|discriminate].
    destruct (length (List.filter (fun m => negb (isError m)) (m :: msgs)));
      [|discriminate].
    simpl in Hp. lia.
Qed.

Lemma toItems_rulesNamed (results : option (list ESLint.LintResult)) :
  rulesNamed (toItems results).
Proof.
  unfold rulesNamed. rewrite toItems_unfold. cbn [items].
  induction (firstMessages results) as [|m msgs IH]; constructor; [|exact IH].
  apply ruleOf_named.
Qed.

Lemma unsupported_report (lang : string) (rep : Report) :
  reportOf (unsupported lang) = Some rep ->
  summary rep = {| level := "warn"; errors := 0; warnings := 1; total := 1 |}
  /\ exists msg loc,
       items rep = [ {| rule := "unsupported-language"; message := msg;
                        severity := "warn"; location := loc |} ].
Proof. intros [= <-]. split; [reflexivity|]. cbn. eauto. Qed.

Section Reports.

Context {Env : Type}.
Variable lintText :
  Env -> ESLint.Options -> string -> ESLint.LintTextOptions ->
  completion (list ESLint.LintResult).

(** A report of the endpoint is a normalised result of the engine or the
    report of an unsupported language. *)
Lemma lint_report_origin (env : Env) (req : Request) (rep : Report) :
  reportOf (body (response (lint Env lintText env req))) = Some rep ->
  (exists results, rep = toItems (Some results))
  \/ (exists lang, reportOf (unsupported lang) = Some rep).
Proof.
  destruct (missingOrBlank (get (bodyOf req) "code")) eqn:Hm.
  - unfold lint. rewrite (tryLint_rejects lintText env req Hm). discriminate.
  - destruct (get (bodyOf req) "code") as [[| | |code| |]|] eqn:Hcode;
      simpl in Hm; try discriminate Hm.
    unfold lint. rewrite (tryLint_accepts lintText env req code Hcode Hm).
    destruct (effectiveLanguage _) as [lang|e]; simpl; [|discriminate].
    destruct ((lang =? "javascript") || (lang =? "js")); simpl.
    + destruct (lintJavaScript Env lintText env code lang) as [r|e] eqn:Hr;
        simpl; [|discriminate].
      intros Hrep. left.
      destruct (lintJavaScript_report lintText env code lang r rep Hr Hrep)
        as (results & _ & ->).
      eauto.
    + intros Hrep. right. exists lang. exact Hrep.
Qed.

Lemma lint_report_property (P : Report -> Prop) (env : Env) (req : Request) (rep : Report) :
  (forall results, P (toItems results)) ->
  (forall lang r, reportOf (unsupported lang) = Some r -> P r) ->
  reportOf (body (response (lint Env lintText env req))) = Some rep ->
  P rep.
Proof.
  intros Ht Hu Hrep.
  destruct (lint_report_origin env req rep Hrep) as [[results ->] | [lang Hl]]; eauto.
Qed.

End Reports.

(** X1. No third severity: every item that [toItems] produces, and every
    item of a report the lint endpoint returns, has severity [error] or
    [warn]. *)
Theorem reports_have_two_severities :
  (forall results, twoSeverities (toItems results))
  /\ (forall (Env : Type) lintText (env : Env) req rep,
        reportOf (body (response (lint Env lintText env req))) = Some rep ->
        twoSeverities rep).
Proof.
  split; [exact toItems_twoSeverities|].
  intros Env lintText env req rep Hrep.
  apply (lint_report_property lintText twoSeverities env req rep);
    [exact toItems_twoSeverities| |exact Hrep].
  intros lang r Hr. destruct (unsupported_report lang r Hr) as (_ & msg & loc & Hi).
  unfold twoSeverities. rewrite Hi. constructor; [cbn; auto | constructor].
Qed.

(** X2. The counts of a summary are the counts of the items by severity:
    [errors] is the number of items of severity [error], [warnings] the
    number of items of severity [warn]; for [toItems] and for every
    report of the lint endpoint. *)
Theorem reports_count_items_by_severity :
  (forall results, countsBySeverity (toItems results))
  /\ (forall (Env : Type) lintText (env : Env) req rep,
        reportOf (body (response (lint Env lintText env req))) = Some rep ->
        countsBySeverity rep).
Proof.
  split; [exact toItems_countsBySeverity|].
  intros Env lintText env req rep Hrep.
  apply (lint_report_property lintText countsBySeverity env req rep);
    [exact toItems_countsBySeverity| |exact Hrep].
  intros lang r Hr. destruct (unsupported_report lang r Hr) as (Hs & msg & loc & Hi).
  unfold countsBySeverity. rewrite Hs, Hi. split; reflexivity.
Qed.

(** X3. The level is [ok] exactly when the report has no item; for
    [toItems] and for every report of the lint endpoint. *)
Theorem reports_ok_iff_no_item :
  (forall results, okIffNoItem (toItems results))
  /\ (forall (Env : Type) lintText (env : Env) req rep,
        reportOf (body (response (lint Env lintText env req))) = Some rep ->
        okIffNoItem rep).
Proof.
  split; [exact toItems_okIffNoItem|].
  intros Env lintText env req rep Hrep.
  apply (lint_report_property lintText okIffNoItem env req rep);
    [exact toItems_okIffNoItem| |exact Hrep].
  intros lang r Hr. destruct (unsupported_report lang r Hr) as (Hs & msg & loc & Hi).
  unfold okIffNoItem. rewrite Hs, Hi. split; discriminate.
Qed.

(** X4. Every item names a rule: the rule is never the empty string, a
    message whose rule id is missing or empty being filed under
    [(no-rule)]; for [toItems] and for every report of the lint endpoint. *)
Theorem reports_name_rules :
  (forall results, rulesNamed (toItems results))
  /\ (forall m, ESLint.ruleId m = Some "" -> rule (toItem m) = "(no-rule)")
  /\ (forall (Env : Type) lintText (env : Env) req rep,
        reportOf (body (response (lint Env lintText env req))) = Some rep ->
        rulesNamed rep).
Proof.
  split; [exact toItems_rulesNamed|]. split.
  - intros m H. cbn. unfold ruleOf. rewrite H. reflexivity.
  - intros Env lintText env req rep.
    apply lint_report_property; [exact toItems_rulesNamed|].
    intros lang r Hr. destruct (unsupported_report lang r Hr) as (_ & msg & loc & Hi).
    unfold rulesNamed. rewrite Hi. constructor; [discriminate | constructor].
Qed.

Lemma filter_isError_Exists (msgs : list ESLint.LintMessage) :
  (0 < length (List.filter isError msgs))%nat
  <-> Exists (fun m => ESLint.severity m = 2%Z) msgs.
Proof.
  induction msgs as [|m msgs IH]; cbn [List.filter].
  - split; [cbn; lia | intros H; inversion H].
  - unfold isError at 1. destruct (Z.eqb_spec (ESLint.severity m) 2) as [He|He].
    + split; [intros _; left; exact He | cbn; lia].
    + rewrite IH. split; [intros H; right; exact H|].
      intros H. inversion H; subst; [contradiction | assumption].
Qed.

(** X5. The level is [error] exactly when some message of the first
    result has severity 2; a message of any other severity (0, 1, 3, ...)
    never raises the level above [warn]. *)
Theorem toItems_error_iff_severity_2 (results : option (list ESLint.LintResult)) :
  level (summary (toItems results)) = "error"
  <-> Exists (fun m => ESLint.severity m = 2%Z) (firstMessages results).
Proof.
  rewrite <- filter_isError_Exists, toItems_unfold. cbn [summary level].
  destruct (length (List.filter isError (firstMessages results))).
  - split; [|lia].
    destruct (length (List.filter _ (firstMessages results))); discriminate.
  - split; [lia | reflexivity].
Qed.

(** X6. Normalisation is additive in the messages: for the messages
    [a ++ b] the items are those of [a] followed by those of [b], in
    order, and the three counts are the sums of the counts. *)
Theorem toItems_app (f : string) (a b : list ESLint.LintMessage)
    (rest : list ESLint.LintResult) :
  let whole := toItems (Some (ESLint.mkLintResult f (Some (a ++ b)%list) :: rest)) in
  let left := toItems (Some [ESLint.mkLintResult f (Some a)]) in
  let right := toItems (Some [ESLint.mkLintResult f (Some b)]) in
  items whole = (items left ++ items right)%list
  /\ errors (summary whole) = errors (summary left) + errors (summary right)
  /\ warnings (summary whole) = warnings (summary left) + warnings (summary right)
  /\ total (summary whole) = total (summary left) + total (summary right).
Proof.
  cbv zeta. rewrite !toItems_unfold. unfold firstMessages. cbn.
  rewrite !List.filter_app, map_app, !length_app. auto.
Qed.

(** *** Conversion of the language to a string *)

Lemma JSON_nested_ind (P : JSON -> Prop) :
  P JNull -> (forall b, P (JBool b)) -> (forall n, P (JNum n)) ->
  (forall s, P (JStr s)) ->
  (forall xs, Forall P xs -> P (JArr xs)) ->
  (forall props, P (JObj props)) ->
  forall v, P v.
Proof.
  intros Hnull Hbool Hnum Hstr Harr Hobj.
  fix IH 1. intros [|b|n|s|xs|props].
  - exact Hnull.
  - apply Hbool.
  - apply Hnum.
  - apply Hstr.
  - apply Harr. induction xs as [|x xs IHxs]; constructor; [apply IH | exact IHxs].
  - apply Hobj.
Qed.

Lemma sequence_converts (xs : list JSON) :
  Forall converts xs ->
  let part := fun x => match x with JNull => Normal "" | _ => toString x end in
  (existsb unprintable xs = false -> exists parts, sequence (map part xs) = Normal parts)
  /\ (existsb unprintable xs = true -> sequence (map part xs) = Throw cannotConvert).
Proof.
  intros Hxs part. induction Hxs as [|x xs [Hx1 Hx2] _ [IH1 IH2]]; cbn [existsb map sequence].
  - split; [eauto | discriminate].
  - assert (Hp1 : unprintable x = false -> exists s, part x = Normal s)
      by (destruct x; cbn; eauto).
    assert (Hp2 : unprintable x = true -> part x = Throw cannotConvert)
      by (destruct x; cbn; auto; discriminate).
    destruct (unprintable x); cbn [orb].
    + split; [discriminate|]. intros _. rewrite Hp2 by reflexivity. reflexivity.
    + destruct (Hp1 eq_refl) as [s ->]. cbn [bind]. split.
      * intros H. destruct (IH1 H) as [parts ->]. cbn. eauto.
      * intros H. rewrite (IH2 H). reflexivity.
Qed.

Lemma toString_converts (v : JSON) : converts v.
Proof.
  induction v as [|b|n|s|xs IH|props] using JSON_nested_ind;
    try (split; [cbn; destruct b || idtac; eauto | discriminate]).
  - destruct (sequence_converts xs IH) as [H1 H2]. split; cbn [unprintable toString].
    + intros H. destruct (H1 H) as [parts ->]. cbn. eauto.
    + intros H. rewrite (H2 H). reflexivity.
  - split; cbn [unprintable toString]; destruct (props !! "toString") eqn:Hp.
    + intros H. apply bool_decide_eq_false in H. destruct H. eauto.
    + eauto.
    + reflexivity.
    + intros H. apply bool_decide_eq_true in H. destruct H; discriminate.
Qed.

(** [String(v)] of a parsed value fails exactly when the value is an
    object with an own [toString] property or an array holding one at
    some depth; the error is then the TypeError of the conversion, and
    otherwise the conversion returns a text. *)
Lemma toString_fails_iff_unprintable (v : JSON) :
  (toString v = Throw cannotConvert <-> unprintable v = true)
  /\ ((exists s, toString v = Normal s) <-> unprintable v = false)
  /\ (forall e, toString v = Throw e -> e = cannotConvert).
Proof.
  destruct (toString_converts v) as [H1 H2].
  destruct (unprintable v).
  - rewrite (H2 eq_refl). repeat split; auto.
    + intros [s Hs]; discriminate.
    + discriminate.
    + intros e [= <-]. reflexivity.
  - destruct (H1 eq_refl) as [s ->]. repeat split; eauto; discriminate.
Qed.

Lemma lowerUnit_idem (c : ascii) : lowerUnit (lowerUnit c) = lowerUnit c.
Proof. destruct c as [[] [] [] [] [] [] [] []]; reflexivity. Qed.

Lemma toLowerCase_idem (s : string) : toLowerCase (toLowerCase s) = toLowerCase s.
Proof.
  induction s as [|c s IH]; cbn; [reflexivity|]. rewrite lowerUnit_idem, IH. reflexivity.
Qed.

Lemma unprintable_truthy (j : JSON) : unprintable j = true -> truthy (Some j) = true.
Proof. destruct j; cbn; auto; discriminate. Qed.

(** The three ways [String(language || "javascript").toLowerCase()] ends. *)
Lemma effectiveLanguage_cases (v : Value) :
  (truthy v = false /\ effectiveLanguage v = Normal "javascript")
  \/ (exists j, v = Some j /\ unprintable j = true
                /\ effectiveLanguage v = Throw cannotConvert)
  \/ (exists j s, v = Some j /\ truthy v = true /\ unprintable j = false
                  /\ toString j = Normal s
                  /\ effectiveLanguage v = Normal (toLowerCase s)).
Proof.
  unfold effectiveLanguage, orElse. destruct (truthy v) eqn:Ht.
  - destruct v as [j|]; [|discriminate Ht]. right.
    destruct (toString_converts j) as [H1 H2]. destruct (unprintable j) eqn:Hu.
    + left. exists j. cbn [String_]. rewrite (H2 eq_refl). auto.
    + right. destruct (H1 eq_refl) as [s Hs]. exists j, s. cbn [String_].
      rewrite Hs. auto.
  - left. auto.
Qed.

Lemma effectiveLanguage_lower (v : Value) (lang : string) :
  effectiveLanguage v = Normal lang -> toLowerCase lang = lang.
Proof.
  destruct (effectiveLanguage_cases v)
    as [[_ ->] | [(j & _ & _ & ->) | (j & s & _ & _ & _ & _ & ->)]];
    intros [= <-]; [reflexivity | apply toLowerCase_idem].
Qed.

Section Answers.

Context {Env : Type}.
Variable lintText :
  Env -> ESLint.Options -> string -> ESLint.LintTextOptions ->
  completion (list ESLint.LintResult).

Local Abbreviation lint := (Server.lint Env lintText).
Local Abbreviation lintJavaScript := (Server.lintJavaScript Env lintText).

(** The handler after validation: the language is resolved, then the
    request is dispatched. *)
Lemma lint_accepts (env : Env) (req : Request) (code : string) :
  get (bodyOf req) "code" = Some (JStr code) ->
  allWhiteSpace code = false ->
  lint env req =
    catch (bind (effectiveLanguage (get (bodyOf req) "language"))
                (fun lang =>
                   if (lang =? "javascript") || (lang =? "js")
                   then lintJavaScript env code lang
                   else Normal (json (unsupported lang)))).
Proof.
  intros Hcode Hs. unfold Server.lint.
  rewrite (tryLint_accepts lintText env req code Hcode Hs). reflexivity.
Qed.

Lemma lintJavaScript_cases (env : Env) (code lang : string) :
  (exists results,
      lintText env engineOptions code inputFile = Normal results
      /\ lintJavaScript env code lang =
           Normal (json (LintBody true lang (summary (toItems (Some results)))
                                  (items (toItems (Some results))))))
  \/ (exists e, lintText env engineOptions code inputFile = Throw e
                /\ lintJavaScript env code lang = Throw e).
Proof.
  unfold Server.lintJavaScript. fold engineOptions inputFile.
  destruct (lintText env engineOptions code inputFile) as [results|e]; cbn [bind]; eauto.
Qed.

Lemma valid_code (req : Request) :
  missingOrBlank (get (bodyOf req) "code") = false ->
  exists code, get (bodyOf req) "code" = Some (JStr code) /\ allWhiteSpace code = false.
Proof.
  destruct (get (bodyOf req) "code") as [[| | |code| |]|]; cbn; try discriminate. eauto.
Qed.

(** X7. The lint endpoint answers in one of three shapes: status 200 with
    [ok: true] and a report, nothing logged; status 400 with the error
    [Missing 'code' (string)], nothing logged; or status 500 with the
    text of an error, that error being the one thing logged. *)
Theorem lint_answer_shapes (env : Env) (req : Request) :
  (status (response (lint env req)) = 200%Z
   /\ console (lint env req) = []
   /\ exists lang s i, body (response (lint env req)) = LintBody true lang s i)
  \/ lint env req = {| response := badRequest; console := [] |}
  \/ (exists e,
        lint env req =
          {| response := statusJson 500 (ErrorBody (errorToString e));
             console := [e] |}).
Proof.
  destruct (missingOrBlank (get (bodyOf req) "code")) eqn:Hm.
  - right; left. unfold Server.lint. rewrite (tryLint_rejects lintText env req Hm).
    reflexivity.
  - destruct (valid_code req Hm) as (code & Hcode & Hs).
    rewrite (lint_accepts env req code Hcode Hs).
    destruct (effectiveLanguage _) as [lang|e]; cbn [bind]; [|right; right; eauto].
    destruct ((lang =? "javascript") || (lang =? "js")).
    + destruct (lintJavaScript_cases env code lang)
        as [(results & _ & ->) | (e & _ & ->)]; [left | right; right]; cbn; eauto 10.
    + left. cbn. eauto 10.
Qed.

(** X8. In an answer with a report, [ok] is true and [language] is the
    language the handler resolved from the request; it is in lower case
    (lower-casing it again changes nothing). *)
Theorem lint_answer_language (env : Env) (req : Request)
    (ok : bool) (lang : string) (s : Summary) (i : list Item) :
  body (response (lint env req)) = LintBody ok lang s i ->
  ok = true
  /\ effectiveLanguage (get (bodyOf req) "language") = Normal lang
  /\ toLowerCase lang = lang.
Proof.
  destruct (missingOrBlank (get (bodyOf req) "code")) eqn:Hm.
  - unfold Server.lint. rewrite (tryLint_rejects lintText env req Hm). discriminate.
  - destruct (valid_code req Hm) as (code & Hcode & Hs).
    rewrite (lint_accepts env req code Hcode Hs).
    destruct (effectiveLanguage _) as [l|e] eqn:Hl; cbn [bind]; [|discriminate].
    pose proof (effectiveLanguage_lower _ l Hl) as Hlow.
    destruct ((l =? "javascript") || (l =? "js")).
    + destruct (lintJavaScript_cases env code l)
        as [(results & _ & ->) | (e & _ & ->)]; [|discriminate].
      cbn. intros [= <- <- _ _]. auto.
    + cbn. intros [= <- <- _ _]. auto.
Qed.


Lemma lint_500_causes (env : Env) (req : Request) :
  status (response (lint env req)) = 500%Z ->
  exists code,
    get (bodyOf req) "code" = Some (JStr code)
    /\ allWhiteSpace code = false
    /\ ((exists j, get (bodyOf req) "language" = Some j /\ unprintable j = true)
        \/ (exists lang e,
              effectiveLanguage (get (bodyOf req) "language") = Normal lang
              /\ (lang = "javascript" \/ lang = "js")
              /\ lintText env engineOptions code inputFile = Throw e)).
Proof.
  intros H500.
  destruct (missingOrBlank (get (bodyOf req) "code")) eqn:Hm.
  { unfold Server.lint in H500. rewrite (tryLint_rejects lintText env req Hm) in H500.
    discriminate H500. }
  destruct (valid_code req Hm) as (code & Hcode & Hs).
  exists code. split; [exact Hcode|]. split; [exact Hs|].
  rewrite (lint_accepts env req code Hcode Hs) in H500.
  destruct (effectiveLanguage (get (bodyOf req) "language")) as [lang|e0] eqn:Hl.
  - right. cbn [bind] in H500.
    destruct ((lang =? "javascript") || (lang =? "js")) eqn:Hb.
    + destruct (lintJavaScript_cases env code lang)
        as [(results & _ & Hr) | (e & He & _)].
      * rewrite Hr in H500. discriminate H500.
      * exists lang, e. split; [reflexivity|]. split; [|exact He].
        apply orb_true_iff in Hb. rewrite !String.eqb_eq in Hb. exact Hb.
    + discriminate H500.
  - left.
    destruct (effectiveLanguage_cases (get (bodyOf req) "language"))
      as [[_ Hl'] | [(j & Hj & Hu & _) | (j & s & _ & _ & _ & _ & Hl')]].
    + rewrite Hl' in Hl. discriminate Hl.
    + exists j. auto.
    + rewrite Hl' in Hl. discriminate Hl.
Qed.

Lemma effectiveLanguage_unprintable (v : Value) (j : JSON) :
  v = Some j -> unprintable j = true -> effectiveLanguage v = Throw cannotConvert.
Proof.
  intros -> Hu. unfold effectiveLanguage, orElse.
  rewrite (unprintable_truthy j Hu). cbn [String_].
  destruct (toString_converts j) as [_ H2]. rewrite (H2 Hu). reflexivity.
Qed.

(** X11. The causes of a status 500. The lint endpoint answers 500
    exactly when the code passes validation and either the language
    cannot be converted to a string, or the language resolves to
    [javascript] or [js] and the engine throws. *)
Theorem lint_500_iff (env : Env) (req : Request) :
  status (response (lint env req)) = 500%Z
  <-> exists code,
        get (bodyOf req) "code" = Some (JStr code)
        /\ allWhiteSpace code = false
        /\ ((exists j, get (bodyOf req) "language" = Some j /\ unprintable j = true)
            \/ (exists lang e,
                  effectiveLanguage (get (bodyOf req) "language") = Normal lang
                  /\ (lang = "javascript" \/ lang = "js")
                  /\ lintText env engineOptions code inputFile = Throw e)).
Proof.
  split; [apply lint_500_causes|].
  intros (code & Hcode & Hs & [(j & Hj & Hu) | (lang & e & Hl & Hjs & He)]);
    rewrite (lint_accepts env req code Hcode Hs).
  - rewrite (effectiveLanguage_unprintable _ j Hj Hu). reflexivity.
  - rewrite Hl. cbn [bind].
    replace ((lang =? "javascript") || (lang =? "js")) with true
      by (destruct Hjs as [-> | ->]; reflexivity).
    destruct (lintJavaScript_cases env code lang)
      as [(results & Hr & _) | (e' & _ & ->)].
    + rewrite Hr in He. discriminate He.
    + reflexivity.
Qed.

End Answers.

(** X9. The engine is run only for a request that passes validation and
    whose language resolves to [javascript] or [js]: the answer to any
    other request is the same whatever the engine. *)
Theorem lint_without_engine {Env : Type}
    (lt1 lt2 : Env -> ESLint.Options -> string -> ESLint.LintTextOptions ->
               completion (list ESLint.LintResult))
    (env : Env) (req : Request) :
  missingOrBlank (get (bodyOf req) "code") = true
  \/ (forall lang, effectiveLanguage (get (bodyOf req) "language") = Normal lang ->
                   lang <> "javascript" /\ lang <> "js") ->
  lint Env lt1 env req = lint Env lt2 env req.
Proof.
  intros H. destruct (missingOrBlank (get (bodyOf req) "code")) eqn:Hm.
  - unfold lint. rewrite !(tryLint_rejects _ env req Hm). reflexivity.
  - destruct H as [H | H]; [discriminate H|].
    destruct (valid_code req Hm) as (code & Hcode & Hs).
    rewrite !(lint_accepts _ env req code Hcode Hs).
    destruct (effectiveLanguage (get (bodyOf req) "language")) as [lang|e];
      [|reflexivity].
    destruct (H lang eq_refl) as [H1 H2]. apply String.eqb_neq in H1, H2.
    cbn [bind]. rewrite H1, H2. reflexivity.
Qed.

Lemma lint_without_engine_python :
  lint Example.Env Example.lintText Example.index Example.pythonRequest
  = lint Example.Env Example.failing Example.index Example.pythonRequest.
Proof.
  apply (lint_without_engine Example.lintText Example.failing Example.index
           Example.pythonRequest).
  right. intros lang H. vm_compute in H. injection H as <-. split; discriminate.
Defined.

Lemma lint_answer_language_demo :
  true = true
  /\ effectiveLanguage (get (bodyOf Example.jsRequest) "language") = Normal "javascript"
  /\ toLowerCase "javascript" = "javascript".
Proof.
  apply (lint_answer_language Example.lintText Example.index Example.jsRequest
           true "javascript" (summary Example.demoReport) (items Example.demoReport)).
  vm_compute. reflexivity.
Defined.


Example lint_odd_language_unprintable :
  lint Example.Env Example.lintText Example.index Example.oddRequest = conversionFailure.
Proof. vm_compute. reflexivity. Qed.

(** *** The playground script *)

Lemma append_cons (c : ascii) (s t : string) :
  String c s ++ t = String c (s ++ t).
Proof. reflexivity. Qed.

Lemma stripFinalSlash_step (c d : ascii) (r : string) :
  Playground.stripFinalSlash (String c (String d r))
  = String c (Playground.stripFinalSlash (String d r)).
Proof. reflexivity. Qed.

Lemma stripFinalSlash_app_slash (b : string) :
  Playground.stripFinalSlash (b ++ "/") = b.
Proof.
  induction b as [|c b IH]; [reflexivity|].
  destruct b as [|d b]; [reflexivity|].
  rewrite !append_cons in *. rewrite stripFinalSlash_step, IH. reflexivity.
Qed.

Lemma stripFinalSlash_other (b : string) (c : ascii) :
  c <> Playground.slash ->
  Playground.stripFinalSlash (b ++ String c "") = b ++ String c "".
Proof.
  intros Hc. induction b as [|d b IH].
  - change ("" ++ String c "") with (String c "").
    cbn [Playground.stripFinalSlash]. apply Ascii.eqb_neq in Hc. rewrite Hc. reflexivity.
  - destruct b as [|e b]; rewrite !append_cons in *.
    + change ("" ++ String c "") with (String c "") in *.
      rewrite stripFinalSlash_step, IH. reflexivity.
    + rewrite stripFinalSlash_step, IH. reflexivity.
Qed.

Lemma not_empty_app (b : string) (c : ascii) (r : string) :
  JS.isEmpty (b ++ String c r) = false.
Proof. destruct b; reflexivity. Qed.

(** X14. The playground forms the URL from the base with one final slash
    removed: a base typed with a final slash gives the URL of the base
    without it, and a base that ends otherwise is used as it is. Only one
    slash is removed. *)
Theorem playground_url_final_slash :
  (forall b ep, Playground.url (b ++ "/") ep = b ++ ep)
  /\ (forall b c ep, c <> Playground.slash ->
        Playground.url (b ++ String c "") ep = (b ++ String c "") ++ ep)
  /\ (forall ep, Playground.url "" ep = ep).
Proof.
  split; [|split].
  - intros b ep. unfold Playground.url, Playground.base.
    rewrite not_empty_app, stripFinalSlash_app_slash. reflexivity.
  - intros b c ep Hc. unfold Playground.url, Playground.base.
    rewrite not_empty_app, stripFinalSlash_other by exact Hc. reflexivity.
  - reflexivity.
Qed.

(** X15. The text the playground puts after [-d] in the cURL command is
    the JSON text of the body unchanged: the replacement of the served
    script puts a double quote for every double quote, so no quote is
    escaped. *)
Theorem playground_curl_json_unchanged (json : string) :
  Playground.jsonForCurl json = json.
Proof.
  unfold Playground.jsonForCurl.
  induction json as [|d r IH]; [reflexivity|].
  cbn [Playground.replaceAll]. rewrite IH.
  destruct (Ascii.eqb_spec d Playground.quote) as [-> | _]; reflexivity.
Qed.

(** *** The two ends of the handler *)

(** X12. The main path. When the code passes validation, the language
    resolves to [javascript] or [js] and the engine, given the text as it
    was sent and the options of the server, returns results, the answer
    has status 200, [ok: true], that language, and the report
    [toItems] makes of the results; nothing is logged. *)
Theorem lint_success {Env : Type}
    (lintText : Env -> ESLint.Options -> string -> ESLint.LintTextOptions ->
                completion (list ESLint.LintResult))
    (env : Env) (req : Request) (code lang : string)
    (results : list ESLint.LintResult) :
  get (bodyOf req) "code" = Some (JStr code) ->
  allWhiteSpace code = false ->
  effectiveLanguage (get (bodyOf req) "language") = Normal lang ->
  lang = "javascript" \/ lang = "js" ->
  lintText env engineOptions code inputFile = Normal results ->
  lint Env lintText env req =
    {| response :=
         mkResponse 200 (LintBody true lang (summary (toItems (Some results)))
                                  (items (toItems (Some results))));
       console := [] |}.
Proof.
  intros Hcode Hs Hl Hjs Hr.
  rewrite (lint_accepts lintText env req code Hcode Hs), Hl. cbn [bind].
  replace ((lang =? "javascript") || (lang =? "js")) with true
    by (destruct Hjs as [-> | ->]; reflexivity).
  destruct (lintJavaScript_cases lintText env code lang)
    as [(results' & Hr' & ->) | (e & He & _)].
  - rewrite Hr in Hr'. injection Hr' as <-. reflexivity.
  - rewrite Hr in He. discriminate He.
Qed.

Lemma lint_success_demo :
  lint Example.Env Example.lintText Example.index Example.jsRequest =
    {| response :=
         mkResponse 200
           (LintBody true "javascript"
              (summary (toItems (Some [ESLint.mkLintResult "input.js"
                                         (Some [Example.report 1
                                                  (Example.mkFeature "startViewTransition"
                                                     "view-transitions" "firefox" 144)])])))
              (items (toItems (Some [ESLint.mkLintResult "input.js"
                                       (Some [Example.report 1
                                                (Example.mkFeature "startViewTransition"
                                                   "view-transitions" "firefox" 144)])]))));
       console := [] |}.
Proof.
  apply (lint_success Example.lintText Example.index Example.jsRequest
           Example.demoCode "javascript");
    [vm_compute; reflexivity | reflexivity | vm_compute; reflexivity
    | left; reflexivity | vm_compute; reflexivity].
Defined.



End Properties.
